(** * Region-information gateway ([app.py])

    A shallow embedding of the Flask handler [get_region_info] and of the
    three provider functions it aggregates ([get_map_info],
    [get_forest_data], [get_property_data]).

    Python values are embedded as one universal type [pyval]; dictionaries
    are finite maps with string keys.  Exceptions, logging and the single
    outgoing HTTP request are threaded through a small monad [Py] that
    carries the trace of effects and either a returned value or a raised
    exception.  Coordinates are IEEE-754 binary64 numbers, as Python floats
    are.

    What the program takes from its libraries is a parameter of the
    development: the credential read from the environment, the builtin
    conversions between [float] and [str], and the answer of the upstream
    geocoding server.  The Flask middleware around the handler (routing,
    CORS, the rate limiter) is not part of the embedding.

    The FTP upload script of the repository ([upload.py]) is embedded in
    the module [Upload], with a monad of its own that threads the state of
    the server. *)

From Stdlib Require Import PrimFloat ZArith.
From stdpp Require Import base strings gmap list.

Set Warnings "-register-all,-inexact-float".

(** ** Python values *)

Inductive pyval :=
| PNone
| PBool (b : bool)
| PInt (z : Z)
| PFloat (f : float)
| PStr (s : string)
| PList (l : list pyval)
| PDict (d : gmap string pyval).

(** The name Python prints for the type of a value in its error messages. *)
Definition type_name (v : pyval) : string :=
  match v with
  | PNone => "NoneType"
  | PBool _ => "bool"
  | PInt _ => "int"
  | PFloat _ => "float"
  | PStr _ => "str"
  | PList _ => "list"
  | PDict _ => "dict"
  end.

(** Truth value of an object, as tested by [if] and [and]. *)
Definition truthy (v : pyval) : bool :=
  match v with
  | PNone => false
  | PBool b => b
  | PInt z => negb (z =? 0)%Z
  | PFloat f => negb (PrimFloat.eqb f 0%float)
  | PStr s => negb (String.eqb s "")
  | PList l => negb (Nat.eqb (length l) 0)
  | PDict d => negb (Nat.eqb (size d) 0)
  end.

(** [v == s] for a string literal [s]: only an equal [str] compares equal. *)
Definition py_eq_str (v : pyval) (s : string) : bool :=
  match v with
  | PStr t => String.eqb t s
  | _ => false
  end.

(** ** Exceptions, effects and the [Py] monad *)

Inductive exn :=
| RequestException (msg : string)
| JSONDecodeError (msg : string)
| AttributeError (type attr : string)
| KeyError (key : pyval)
| IndexError (msg : string)
| TypeError (msg : string).

Inductive level := INFO | ERROR.

(** The argument substituted for [%s] in a log record. *)
Inductive logged :=
| LVal (v : pyval)
| LExn (e : exn).

Inductive event :=
| EvHttpGet (url : string) (params : gmap string pyval) (timeout : Z)
| EvLog (lvl : level) (fmt : string) (arg : logged).

Inductive outcome (A : Type) :=
| Return (a : A)
| Raise (e : exn).
Arguments Return {A} a.
Arguments Raise {A} e.

(** A computation: the effects it performed, then how it ended. *)
Definition Py (A : Type) : Type := list event * outcome A.

Definition trace {A} (m : Py A) : list event := m.1.
Definition result {A} (m : Py A) : outcome A := m.2.

#[global] Instance Py_ret : MRet Py := λ A a, ([], Return a).

#[global] Instance Py_bind : MBind Py := λ A B f m,
  match m with
  | (t, Return a) => let '(t', r) := f a in (t ++ t', r)
  | (t, Raise e) => (t, Raise e)
  end.

Definition raise {A} (e : exn) : Py A := ([], Raise e).

(** [try: m  except Exception as e: h e] *)
Definition try_except {A} (m : Py A) (h : exn → Py A) : Py A :=
  match m with
  | (t, Raise e) => let '(t', r) := h e in (t ++ t', r)
  | (t, Return a) => (t, Return a)
  end.

(** [logging.info] / [logging.error]: one record, never an exception. *)
Definition log (lvl : level) (fmt : string) (arg : logged) : Py unit :=
  ([EvLog lvl fmt arg], Return tt).

(** ** Operations on values *)

(** Field [k] of the dictionary a computation returned, if it returned one
    that has it. *)
Definition fld (k : string) (r : outcome pyval) : option pyval :=
  match r with
  | Return (PDict d) => d !! k
  | _ => None
  end.

(** [v.get(k, default)] *)
Definition py_get (v : pyval) (k : string) (dflt : pyval) : Py pyval :=
  match v with
  | PDict d => mret (default dflt (d !! k))
  | _ => raise (AttributeError (type_name v) "get")
  end.

(** [v[k]] for a string key [k] *)
Definition py_getitem (v : pyval) (k : string) : Py pyval :=
  match v with
  | PDict d =>
      match d !! k with
      | Some x => mret x
      | None => raise (KeyError (PStr k))
      end
  | PList _ => raise (TypeError "list indices must be integers or slices, not str")
  | PStr _ => raise (TypeError "string indices must be integers, not 'str'")
  | _ => raise (TypeError ("'" ++ type_name v ++ "' object is not subscriptable"))
  end.

(** Strings are kept UTF-8 encoded; the first character of a [str] is its
    leading byte together with the continuation bytes that follow it. *)
Definition is_continuation (a : Ascii.ascii) : bool :=
  let n := Ascii.nat_of_ascii a in (128 <=? n) && (n <? 192).

Fixpoint continuation (s : string) : string :=
  match s with
  | String a r => if is_continuation a then String a (continuation r) else ""
  | EmptyString => ""
  end.

(** [v[0]] *)
Definition py_first (v : pyval) : Py pyval :=
  match v with
  | PList l =>
      match l with
      | x :: _ => mret x
      | [] => raise (IndexError "list index out of range")
      end
  | PStr s =>
      match s with
      | String a r => mret (PStr (String a (continuation r)))
      | EmptyString => raise (IndexError "string index out of range")
      end
  | PDict _ => raise (KeyError (PInt 0))
  | _ => raise (TypeError ("'" ++ type_name v ++ "' object is not subscriptable"))
  end.

(** ** The world outside the program *)

(** What comes back from [requests.get(...)] followed by [response.json()]:
    the request itself fails (connection error, timeout), the body is not
    JSON, or the body decodes to some JSON value. *)
Inductive http_reply :=
| GetRaises (e : exn)
| JsonRaises (e : exn)
| JsonIs (v : pyval).

(** A response object; the only thing the program does with it is [.json()]. *)
Record http_response := { json_body : outcome pyval }.

(** An HTTP response of the handler: [jsonify(body), status]. *)
Record response := { body : pyval; status_code : Z }.

Definition jsonify (v : pyval) : pyval := v.

(** [request.args]: the query-string pairs in the order they were sent;
    [get] reads the first value of a key. *)
Fixpoint args_first (args : list (string * string)) (key : string) : option string :=
  match args with
  | [] => None
  | (k, v) :: rest => if String.eqb k key then Some v else args_first rest key
  end.

(** [request.args.get(key, type=conv)]: a missing key and a value on which
    [conv] raises [ValueError] both give the default, [None]. *)
Definition args_get {A} (args : list (string * string)) (key : string)
    (conv : string → option A) : option A :=
  match args_first args key with
  | Some rv => conv rv
  | None => None
  end.

(** The geocoding outcomes the handler is written for.  A successful
    answer is an object with status "OK" whose results are a non-empty list
    starting with an object; that object's [geometry] is an object when
    present. *)
Definition geometry_of (first : gmap string pyval) : Prop :=
  first !! "geometry" = None ∨ ∃ g, first !! "geometry" = Some (PDict g).

Inductive geocoding : http_reply → Prop :=
| geocoding_failed e :
    (* transport failure, timeout *)
    geocoding (GetRaises e)
| geocoding_undecodable e :
    (* the body is not JSON *)
    geocoding (JsonRaises e)
| geocoding_not_ok d :
    d !! "status" ≠ Some (PStr "OK") →
    geocoding (JsonIs (PDict d))
| geocoding_no_results d :
    d !! "status" = Some (PStr "OK") →
    truthy (default PNone (d !! "results")) = false →
    geocoding (JsonIs (PDict d))
| geocoding_success d first rest :
    d !! "status" = Some (PStr "OK") →
    d !! "results" = Some (PList (PDict first :: rest)) →
    geometry_of first →
    geocoding (JsonIs (PDict d)).

(** ** Sample worlds

    Concrete environments on which the statements below are exercised:
    a parser and a printer for the two coordinates of the spec's example,
    and upstream servers that answer every request the same way. *)

Definition sample_float (s : string) : option float :=
  if String.eqb s "37.5665" then Some 37.5665%float
  else if String.eqb s "126.9780" then Some 126.978%float
  else None.

Definition sample_str (f : float) : string :=
  if PrimFloat.eqb f 37.5665 then "37.5665"
  else if PrimFloat.eqb f 126.978 then "126.978"
  else "0.0".

Definition sample_args : list (string * string) :=
  [("latitude", "37.5665"); ("longitude", "126.9780")].

Definition always (rep : http_reply) : string → gmap string pyval → Z → http_reply :=
  λ _ _ _, rep.

(** A well-formed answer of the geocoding service. *)
Definition seoul_result : gmap string pyval :=
  {[ "formatted_address" := PStr "110 Sejong-daero, Jung-gu, Seoul";
     "geometry" := PDict {[ "location_type" := PStr "ROOFTOP" ]} ]}.

Definition seoul_reply : http_reply :=
  JsonIs (PDict {[ "status" := PStr "OK"; "results" := PList [PDict seoul_result] ]}).

(** The same first result, followed by a second one and with a further
    top-level field. *)
Definition seoul_reply_more : http_reply :=
  JsonIs (PDict {[ "status" := PStr "OK";
                   "plus_code" := PDict {[ "global_code" := PStr "8Q98HX8H+J6" ]};
                   "results" := PList [PDict seoul_result; PDict ∅] ]}).

(** The record [get_map_info] builds from that answer with the key "KEY". *)
Definition seoul_map_info : pyval :=
  PDict {[ "address" := PStr "110 Sejong-daero, Jung-gu, Seoul";
           "formatted_address" := PStr "110 Sejong-daero, Jung-gu, Seoul";
           "location_type" := PStr "ROOFTOP";
           "map_image_url" :=
             PStr ("https://maps.googleapis.com/maps/api/staticmap?"
                   ++ "center=37.5665,126.978&zoom=15&size=600x300&key=KEY") ]}.

(** Status "OK" and one result, whose [geometry] is [null]. *)
Definition null_geometry_reply : http_reply :=
  JsonIs (PDict {[ "status" := PStr "OK";
                   "results" := PList [PDict {[ "formatted_address" := PStr "A";
                                                "geometry" := PNone ]}] ]}).

(** The body [null]: valid JSON, but not an object. *)
Definition null_reply : http_reply := JsonIs PNone.

Definition timeout_reply : http_reply :=
  GetRaises (RequestException "Read timed out. (read timeout=5)").

(** * The upload script ([upload.py])

    [upload_files] and [main] talk to an FTP server and read a local
    directory.  The local file system is a snapshot that does not change
    during the run; the server is an arbitrary state machine that accepts
    or refuses each command.  A computation threads the server's state and
    records the commands sent, the files opened and closed, and the lines
    printed. *)

Module Upload.

Inductive failure :=
| OSError (msg : string)
| FTPError (msg : string).

Inductive res (A : Type) :=
| Ok (a : A)
| Err (e : failure).
Arguments Ok {A} a.
Arguments Err {A} e.

Inductive command :=
| LOGIN (user passwd : string)
| CWD (dirname : string)
| STOR (cmd : string) (data : string)
| QUIT.

Inductive event :=
| Ftp (c : command)
| Open (path : string)
| Close (path : string)
| Print (line : string).

(** The machine the script runs on and the server it talks to. *)
Class Host := {
  server : Type;
  (** [FTP(host)]: connecting may fail *)
  connect : string → res server;
  (** one command: the reply, and the server afterwards *)
  send : server → command → res unit * server;
  (** [os.listdir], [os.path.join], [os.path.isfile] *)
  listdir : string → res (list string);
  join : string → string → string;
  isfile : string → bool;
  (** the bytes of a file opened with mode ['rb'] *)
  read : string → res string;
}.

Definition U `{Host} (A : Type) : Type := server → list event * server * res A.

#[export] Instance U_ret `{Host} : MRet U := λ A a s, ([], s, Ok a).

#[export] Instance U_bind `{Host} : MBind U := λ A B f m s,
  match m s with
  | (t, s1, Ok a) => let '(t', s2, r) := f a s1 in (t ++ t', s2, r)
  | (t, s1, Err e) => (t, s1, Err e)
  end.

(** [try: m  finally: cleanup] *)
Definition finally `{Host} {A} (m : U A) (cleanup : U unit) : U A := λ s,
  let '(t, s1, r) := m s in
  let '(t', s2, c) := cleanup s1 in
  (t ++ t', s2, match c with Ok _ => r | Err e => Err e end).

Definition ftp `{Host} (c : command) : U unit := λ s,
  let '(r, s') := send s c in ([Ftp c], s', r).

Definition os_listdir `{Host} (path : string) : U (list string) := λ s,
  ([], s, listdir path).

(** [open(path, 'rb')]; the file object stands for the bytes read from it *)
Definition open_rb `{Host} (path : string) : U string := λ s,
  match read path with
  | Ok data => ([Open path], s, Ok data)
  | Err e => ([], s, Err e)
  end.

Definition close `{Host} (path : string) : U unit := λ s, ([Close path], s, Ok tt).

Definition print `{Host} (line : string) : U unit := λ s, ([Print line], s, Ok tt).

Definition FTP_SERVER : string := "ftp.yourdomain.com".
Definition FTP_USER : string := "your_ftp_username".
Definition FTP_PASS : string := "your_ftp_password".
Definition LOCAL_DIR : string := "C:\path\to\your\website_files".
Definition REMOTE_DIR : string := "htdocs".

(** The body of the [for] loop, for one entry of the listing. *)
Definition upload_entry `{Host} (local_dir filename : string) : U unit :=
  let local_path := join local_dir filename in
  if isfile local_path
  then
    f ← open_rb local_path;
    finally
      (print ("Uploading " ++ filename ++ "...");;
       ftp (STOR ("STOR " ++ filename) f))
      (close local_path)
  else mret tt.

Fixpoint upload_entries `{Host} (local_dir : string) (names : list string) : U unit :=
  match names with
  | [] => mret tt
  | filename :: rest =>
      upload_entry local_dir filename;;
      upload_entries local_dir rest
  end.

Definition upload_files `{Host} (local_dir remote_dir : string) : U unit :=
  ftp (CWD remote_dir);;
  names ← os_listdir local_dir;
  upload_entries local_dir names.

Definition main `{Host} : list event * res unit :=
  match connect FTP_SERVER with
  | Err e => ([], Err e)
  | Ok session =>
      let '(t, _, r) :=
        (ftp (LOGIN FTP_USER FTP_PASS);;
         print "Connected to FTP server.";;
         upload_files LOCAL_DIR REMOTE_DIR;;
         ftp QUIT;;
         print "Upload complete and connection closed.") session in
      (t, r)
  end.

(** The effects of a run, and how it ended. *)
Definition events `{Host} {A} (x : list event * server * res A) : list event := x.1.1.
Definition ended `{Host} {A} (x : list event * server * res A) : res A := x.2.

(** What a trace shows: the [STOR] commands sent, with their data, and the
    files opened and closed. *)
Definition stored (t : list event) : list (string * string) :=
  omap (λ ev, match ev with Ftp (STOR cmd data) => Some (cmd, data) | _ => None end) t.

Definition opened (t : list event) : list string :=
  omap (λ ev, match ev with Open path => Some path | _ => None end) t.

Definition closed (t : list event) : list string :=
  omap (λ ev, match ev with Close path => Some path | _ => None end) t.

(** All the commands of a trace. *)
Definition commands (t : list event) : list command :=
  omap (λ ev, match ev with Ftp c => Some c | _ => None end) t.

(** Replaying a trace against the server from state [s]: the answer to the
    first command the server refuses, and the part of the trace that
    follows this command; [None] when the server accepts them all. *)
Fixpoint refused `{Host} (s : server) (t : list event) : option (failure * list event) :=
  match t with
  | [] => None
  | Ftp c :: t' =>
      match send s c with
      | (Ok _, s') => refused s' t'
      | (Err e, _) => Some (e, t')
      end
  | _ :: t' => refused s t'
  end.

(** The entries of a listing that are regular files, in listing order. *)
Definition regular `{Host} (local_dir : string) (names : list string) : list string :=
  List.filter (λ filename, isfile (join local_dir filename)) names.

(** A host for the examples: a server that accepts every command and keeps
    them, and a site directory with two files and one sub-directory. *)
Definition sample_host : Host :=
  {| server := list command;
     connect := λ _, Ok [];
     send := λ s c, (Ok tt, s ++ [c]);
     listdir := λ _, Ok ["index.html"; "css"; "app.js"];
     join := λ d n, (d ++ "/" ++ n)%string;
     isfile := λ p, negb (String.eqb p "site/css");
     read := λ p, Ok ("contents of " ++ p)%string |}.

(** The same site behind a server that refuses every [STOR]. *)
Definition read_only_host : Host :=
  {| server := list command;
     connect := λ _, Ok [];
     send := λ s c,
       match c with
       | STOR _ _ => (Err (FTPError "550 Permission denied"), s)
       | _ => (Ok tt, s ++ [c])
       end;
     listdir := λ _, Ok ["index.html"; "css"; "app.js"];
     join := λ d n, (d ++ "/" ++ n)%string;
     isfile := λ p, negb (String.eqb p "site/css");
     read := λ p, Ok ("contents of " ++ p)%string |}.

End Upload.

Section app.

(** [os.getenv("GOOGLE_API_KEY")]: [None] when the variable is unset. *)
Variable GOOGLE_API_KEY : option string.
(** The builtin [float(s)] on a string; [None] stands for [ValueError]. *)
Variable py_float : string → option float.
(** How an f-string renders a float. *)
Variable float_str : float → string.
(** The upstream server, as a function of the request made. *)
Variable upstream : string → gmap string pyval → Z → http_reply.

Definition key_val : pyval :=
  match GOOGLE_API_KEY with
  | Some k => PStr k
  | None => PNone
  end.

(** How an f-string renders the credential. *)
Definition key_str : string :=
  match GOOGLE_API_KEY with
  | Some k => k
  | None => "None"
  end.

Definition requests_get (url : string) (params : gmap string pyval) (timeout : Z)
    : Py http_response :=
  ([EvHttpGet url params timeout],
   match upstream url params timeout with
   | GetRaises e => Raise e
   | JsonRaises e => Return {| json_body := Raise e |}
   | JsonIs v => Return {| json_body := Return v |}
   end).

Definition response_json (r : http_response) : Py pyval := ([], json_body r).

Definition geocode_url : string :=
  "https://maps.googleapis.com/maps/api/geocode/json".

Definition geocode_params (latitude longitude : float) : gmap string pyval :=
  {[ "latlng" := PStr (float_str latitude ++ "," ++ float_str longitude);
     "key" := key_val ]}.

(** What the upstream answers to the one request [get_map_info] makes. *)
Definition geocode_reply (latitude longitude : float) : http_reply :=
  upstream geocode_url (geocode_params latitude longitude) 5.

Definition static_map_url (latitude longitude : float) : string :=
  "https://maps.googleapis.com/maps/api/staticmap?"
  ++ "center=" ++ float_str latitude ++ "," ++ float_str longitude
  ++ "&zoom=15&size=600x300&key=" ++ key_str.

(** The guarded part of [get_map_info]: the request and its decoding. *)
Definition geocode_call (latitude longitude : float) : Py pyval :=
  try_except
    (response ← requests_get geocode_url (geocode_params latitude longitude) 5;
     geocode_data ← response_json response;
     log INFO "Google Geocoding API 호출 성공: %s" (LVal geocode_data);;
     mret geocode_data)
    (λ e,
     log ERROR "Google Geocoding API 호출 실패: %s" (LExn e);;
     mret (PDict {[ "status" := PStr "ERROR" ]})).

(** The part of [get_map_info] that runs outside the [try]. *)
Definition extract_map_info (latitude longitude : float) (geocode_data : pyval)
    : Py pyval :=
  status ← py_get geocode_data "status" PNone;
  cond ← (if py_eq_str status "OK"
          then results ← py_get geocode_data "results" PNone; mret (truthy results)
          else mret false);
  '(address, location_type) ←
    (if cond : bool
     then
       results ← py_getitem geocode_data "results";
       result ← py_first results;
       address ← py_get result "formatted_address" (PStr "주소 정보 없음");
       geometry ← py_get result "geometry" (PDict ∅);
       location_type ← py_get geometry "location_type" (PStr "N/A");
       mret (address, location_type)
     else mret (PStr "주소 정보를 찾을 수 없음", PStr ""));
  let map_image_url := static_map_url latitude longitude in
  mret (PDict {[ "address" := address;
                 "formatted_address" := address;
                 "location_type" := location_type;
                 "map_image_url" := PStr map_image_url ]}).

Definition get_map_info (latitude longitude : float) : Py pyval :=
  geocode_data ← geocode_call latitude longitude;
  extract_map_info latitude longitude geocode_data.

Definition point (lat lon : float) : pyval :=
  PDict {[ "lat" := PFloat lat; "lon" := PFloat lon ]}.

Definition forest_fallback : pyval :=
  PDict {[ "is_mountain_area" := PBool false;
           "region_name" := PStr "";
           "boundary_coordinates" := PList [] ]}.

(** The [try] body of [get_forest_data]. *)
Definition forest_body (latitude longitude : float) : Py pyval :=
  let data :=
    PDict {[ "is_mountain_area" := PBool true;
             "region_name" := PStr "강원도 산림지역";
             "boundary_coordinates" :=
               PList [ point (latitude + 0.001) (longitude + 0.001);
                       point (latitude + 0.002) (longitude + 0.001);
                       point (latitude + 0.002) (longitude + 0.002);
                       point (latitude + 0.001) (longitude + 0.002) ] ]} in
  log INFO "산림청 API 호출 성공: %s" (LVal data);;
  mret data.

Definition get_forest_data (latitude longitude : float) : Py pyval :=
  try_except
    (forest_body latitude longitude)
    (λ e,
     log ERROR "산림청 API 호출 실패: %s" (LExn e);;
     mret forest_fallback).

Definition property_fallback : pyval :=
  PDict {[ "owner" := PStr "";
           "registration_number" := PStr "";
           "management" := PNone ]}.

(** The [try] body of [get_property_data]. *)
Definition property_body (region_name : pyval) : Py pyval :=
  let data :=
    PDict {[ "owner" := PStr "홍길동";
             "registration_number" := PStr "1234-5678-9012";
             "management" := PNone ]} in
  log INFO "법원 등기소 API 호출 성공: %s" (LVal data);;
  mret data.

Definition get_property_data (region_name : pyval) : Py pyval :=
  try_except
    (property_body region_name)
    (λ e,
     log ERROR "법원 등기소 API 호출 실패: %s" (LExn e);;
     mret property_fallback).

Definition bad_request : response :=
  {| body := jsonify (PDict {[ "error" := PStr "latitude와 longitude 파라미터가 필요합니다." ]});
     status_code := 400 |}.

Definition server_error : response :=
  {| body := jsonify (PDict {[ "error" := PStr "서버 에러 발생" ]});
     status_code := 500 |}.

(** The three provider calls and the merge (steps 5-2 to 5-5). *)
Definition aggregate (latitude longitude : float) : Py response :=
  map_info ← get_map_info latitude longitude;
  forest_data ← get_forest_data latitude longitude;
  region_name ← py_get forest_data "region_name" (PStr "");
  property_data ← get_property_data region_name;
  let result :=
    PDict {[ "map_info" := map_info;
             "forest_data" := forest_data;
             "property_data" := property_data ]} in
  mret {| body := jsonify result; status_code := 200 |}.

Definition get_region_info (args : list (string * string)) : Py response :=
  try_except
    (let latitude := args_get args "latitude" py_float in
     let longitude := args_get args "longitude" py_float in
     match latitude, longitude with
     | Some latitude, Some longitude => aggregate latitude longitude
     | _, _ => mret bad_request
     end)
    (λ e,
     log ERROR "get_region_info 엔드포인트 에러: %s" (LExn e);;
     mret server_error).

(** ** Stepping through [Py] computations *)

Lemma result_bind {A B} (m : Py A) (f : A → Py B) :
  result (m ≫= f) =
  match result m with
  | Return a => result (f a)
  | Raise e => Raise e
  end.
Proof.
  destruct m as [t [a|e]]; [|reflexivity].
  unfold mbind, Py_bind, result. simpl. destruct (f a). reflexivity.
Qed.

Lemma trace_bind {A B} (m : Py A) (f : A → Py B) :
  trace (m ≫= f) =
  match result m with
  | Return a => trace m ++ trace (f a)
  | Raise e => trace m
  end.
Proof.
  destruct m as [t [a|e]]; [|reflexivity].
  unfold mbind, Py_bind, trace. simpl. destruct (f a). reflexivity.
Qed.

Lemma result_try_except {A} (m : Py A) (h : exn → Py A) :
  result (try_except m h) =
  match result m with
  | Return a => Return a
  | Raise e => result (h e)
  end.
Proof.
  destruct m as [t [a|e]]; [reflexivity|].
  unfold try_except, result. simpl. destruct (h e). reflexivity.
Qed.

Lemma bind_Return_inv {A B} (m : Py A) (f : A → Py B) (b : B) :
  result (m ≫= f) = Return b →
  ∃ a, result m = Return a ∧ result (f a) = Return b.
Proof.
  rewrite result_bind. destruct (result m) as [a|e]; [eauto|discriminate].
Qed.

Lemma py_eq_str_true (v : pyval) (s : string) :
  py_eq_str v s = true ↔ v = PStr s.
Proof.
  destruct v; simpl; try (split; [discriminate|congruence]).
  rewrite String.eqb_eq. split; congruence.
Qed.

(** ** The mocked providers *)

Lemma forest_body_returns (latitude longitude : float) :
  ∃ v, forest_body latitude longitude =
       ([EvLog INFO "산림청 API 호출 성공: %s" (LVal v)], Return v).
Proof. eexists. reflexivity. Qed.

Lemma property_body_returns (region_name : pyval) :
  ∃ v, property_body region_name =
       ([EvLog INFO "법원 등기소 API 호출 성공: %s" (LVal v)], Return v).
Proof. eexists. reflexivity. Qed.

(** C2: for every coordinate, [get_forest_data] returns a dictionary whose
    [is_mountain_area] is [True], whose [region_name] is the fixed label,
    and whose [boundary_coordinates] are exactly the four points obtained by
    adding the deltas (+0.001,+0.001), (+0.002,+0.001), (+0.002,+0.002),
    (+0.001,+0.002) to the input (lat, lon), in that order. *)
Theorem get_forest_data_boundary (latitude longitude : float) :
  ∃ d boundary,
    result (get_forest_data latitude longitude) = Return (PDict d)
    ∧ d !! "is_mountain_area" = Some (PBool true)
    ∧ d !! "region_name" = Some (PStr "강원도 산림지역")
    ∧ d !! "boundary_coordinates" = Some (PList boundary)
    ∧ length boundary = 4
    ∧ boundary =
        (λ delta : float * float,
           PDict {[ "lat" := PFloat (latitude + delta.1);
                    "lon" := PFloat (longitude + delta.2) ]})
        <$> [ (0.001, 0.001); (0.002, 0.001); (0.002, 0.002); (0.001, 0.002) ]%float.
Proof.
  do 2 eexists. split; [reflexivity|].
  repeat split; reflexivity.
Qed.

(** C4: the record returned by [get_property_data] is the fixed mock owner
    and registration number with a null [management], whatever the region
    name: two calls with different arguments are indistinguishable, in
    their result and in what they log. *)
Theorem get_property_data_ignores_region (r1 r2 : pyval) :
  get_property_data r1 = get_property_data r2
  ∧ result (get_property_data r1) =
      Return (PDict {[ "owner" := PStr "홍길동";
                       "registration_number" := PStr "1234-5678-9012";
                       "management" := PNone ]}).
Proof. split; reflexivity. Qed.

(** C10: in both mocked providers the [try] body returns (it never
    raises), so the [except] branch does not run: no error record is
    logged and the value returned is not the all-empty fallback. *)
Theorem mock_fallbacks_unreachable (latitude longitude : float) (region_name : pyval) :
  (∃ v, result (forest_body latitude longitude) = Return v
        ∧ get_forest_data latitude longitude = forest_body latitude longitude)
  ∧ (∀ fmt arg, EvLog ERROR fmt arg ∉ trace (get_forest_data latitude longitude))
  ∧ result (get_forest_data latitude longitude) ≠
      Return (PDict {[ "is_mountain_area" := PBool false;
                       "region_name" := PStr "";
                       "boundary_coordinates" := PList [] ]})
  ∧ (∃ v, result (property_body region_name) = Return v
          ∧ get_property_data region_name = property_body region_name)
  ∧ (∀ fmt arg, EvLog ERROR fmt arg ∉ trace (get_property_data region_name))
  ∧ result (get_property_data region_name) ≠
      Return (PDict {[ "owner" := PStr "";
                       "registration_number" := PStr "";
                       "management" := PNone ]}).
Proof.
  split_and!.
  - eexists. split; reflexivity.
  - intros fmt arg Hin. apply list_elem_of_singleton in Hin. discriminate.
  - intros H. apply (f_equal (fld "is_mountain_area")) in H. discriminate H.
  - eexists. split; reflexivity.
  - intros fmt arg Hin. apply list_elem_of_singleton in Hin. discriminate.
  - intros H. apply (f_equal (fld "owner")) in H. discriminate H.
Qed.

(** ** The geocoding provider *)

(** The [try] statement of [get_map_info] never raises; it leaves in
    [geocode_data] the decoded body, or the stand-in with status "ERROR". *)
Lemma geocode_call_result (latitude longitude : float) :
  result (geocode_call latitude longitude) =
  Return match geocode_reply latitude longitude with
         | JsonIs v => v
         | _ => PDict {[ "status" := PStr "ERROR" ]}
         end.
Proof.
  unfold geocode_call, geocode_reply, requests_get.
  destruct (upstream _ _ _); reflexivity.
Qed.

Lemma geocode_call_trace (latitude longitude : float) :
  ∃ t, trace (geocode_call latitude longitude) =
       EvHttpGet geocode_url (geocode_params latitude longitude) 5 :: t.
Proof.
  unfold geocode_call, requests_get.
  destruct (upstream _ _ _); eexists; reflexivity.
Qed.

Lemma get_map_info_result (latitude longitude : float) :
  result (get_map_info latitude longitude) =
  result (extract_map_info latitude longitude
            match geocode_reply latitude longitude with
            | JsonIs v => v
            | _ => PDict {[ "status" := PStr "ERROR" ]}
            end).
Proof.
  unfold get_map_info. rewrite result_bind, geocode_call_result. reflexivity.
Qed.

(** A body that is not an object makes the first [.get] raise. *)
Lemma extract_map_info_non_object (latitude longitude : float) (v : pyval) :
  (∀ d, v ≠ PDict d) →
  extract_map_info latitude longitude v =
  ([], Raise (AttributeError (type_name v) "get")).
Proof.
  intros Hv. destruct v; try reflexivity. by destruct (Hv d).
Qed.

(** The [else] branch: status other than "OK", or results missing or empty. *)
Lemma extract_map_info_fallback (latitude longitude : float) (d : gmap string pyval) :
  d !! "status" ≠ Some (PStr "OK")
  ∨ truthy (default PNone (d !! "results")) = false →
  extract_map_info latitude longitude (PDict d) =
  ([], Return (PDict {[ "address" := PStr "주소 정보를 찾을 수 없음";
                        "formatted_address" := PStr "주소 정보를 찾을 수 없음";
                        "location_type" := PStr "";
                        "map_image_url" := PStr (static_map_url latitude longitude) ]})).
Proof.
  intros H. unfold extract_map_info, py_get.
  destruct (py_eq_str (default PNone (d !! "status")) "OK") eqn:Hs.
  - apply py_eq_str_true in Hs.
    destruct H as [H|H].
    + destruct (d !! "status") as [x|]; simpl in Hs; congruence.
    + unfold mbind, Py_bind, mret, Py_ret. simpl. rewrite Hs. simpl.
      rewrite H. reflexivity.
  - unfold mbind, Py_bind, mret, Py_ret. simpl. rewrite Hs. reflexivity.
Qed.

(** The [if] branch on an answer of the expected shape. *)
Lemma extract_map_info_success (latitude longitude : float)
    (d first : gmap string pyval) (rest : list pyval) :
  d !! "status" = Some (PStr "OK") →
  d !! "results" = Some (PList (PDict first :: rest)) →
  geometry_of first →
  extract_map_info latitude longitude (PDict d) =
  ([], Return (PDict {[ "address" :=
                          default (PStr "주소 정보 없음") (first !! "formatted_address");
                        "formatted_address" :=
                          default (PStr "주소 정보 없음") (first !! "formatted_address");
                        "location_type" :=
                          match first !! "geometry" with
                          | Some (PDict g) => default (PStr "N/A") (g !! "location_type")
                          | _ => PStr "N/A"
                          end;
                        "map_image_url" := PStr (static_map_url latitude longitude) ]})).
Proof.
  intros Hs Hr Hg. unfold extract_map_info, py_get, py_getitem.
  unfold mbind, Py_bind, mret, Py_ret. simpl.
  rewrite Hs, Hr. simpl.
  destruct Hg as [Hg|[g Hg]]; rewrite Hg; reflexivity.
Qed.

(** Whatever the body was, a dictionary that [get_map_info] returns has
    been built by its final [return] statement. *)
Lemma extract_map_info_Return_inv (latitude longitude : float) (v m : pyval) :
  result (extract_map_info latitude longitude v) = Return m →
  ∃ address location_type,
    m = PDict {[ "address" := address;
                 "formatted_address" := address;
                 "location_type" := location_type;
                 "map_image_url" := PStr (static_map_url latitude longitude) ]}.
Proof.
  unfold extract_map_info. intros H.
  apply bind_Return_inv in H as (status & _ & H).
  apply bind_Return_inv in H as (cond & _ & H).
  apply bind_Return_inv in H as ([address location_type] & _ & H).
  injection H as <-. eauto.
Qed.

Lemma get_map_info_Return_inv (latitude longitude : float) (m : pyval) :
  result (get_map_info latitude longitude) = Return m →
  ∃ address location_type,
    m = PDict {[ "address" := address;
                 "formatted_address" := address;
                 "location_type" := location_type;
                 "map_image_url" := PStr (static_map_url latitude longitude) ]}.
Proof.
  rewrite get_map_info_result. apply extract_map_info_Return_inv.
Qed.

(** The part of the fallback policy that the code implements: a failed
    request, an undecodable body, and an object whose status is not "OK" or
    whose results are missing or empty all give the sentinel record. *)
Lemma get_map_info_fallback (latitude longitude : float) :
  match geocode_reply latitude longitude with
  | GetRaises _ | JsonRaises _ => True
  | JsonIs (PDict d) =>
      d !! "status" ≠ Some (PStr "OK")
      ∨ truthy (default PNone (d !! "results")) = false
  | JsonIs _ => False
  end →
  result (get_map_info latitude longitude) =
  Return (PDict {[ "address" := PStr "주소 정보를 찾을 수 없음";
                   "formatted_address" := PStr "주소 정보를 찾을 수 없음";
                   "location_type" := PStr "";
                   "map_image_url" := PStr (static_map_url latitude longitude) ]}).
Proof.
  rewrite get_map_info_result.
  destruct (geocode_reply latitude longitude) as [e|e|v]; intros H;
    try reflexivity.
  destruct v; try done.
  by rewrite extract_map_info_fallback.
Qed.

(** On every outcome of the listed kinds [get_map_info] returns. *)
Lemma get_map_info_returns (latitude longitude : float) :
  geocoding (geocode_reply latitude longitude) →
  ∃ m, result (get_map_info latitude longitude) = Return m.
Proof.
  rewrite get_map_info_result.
  intros [e|e|d Hs|d Hs Hr|d first rest Hs Hr Hg].
  - eexists. reflexivity.
  - eexists. reflexivity.
  - rewrite extract_map_info_fallback by auto. eauto.
  - rewrite extract_map_info_fallback by auto. eauto.
  - erewrite extract_map_info_success by eauto. eauto.
Qed.

(** Conversely, a decoded body on which the extraction returns is of one
    of the listed kinds: every other body makes [get_map_info] raise. *)
Lemma extract_map_info_returns_inv (latitude longitude : float) (v m : pyval) :
  result (extract_map_info latitude longitude v) = Return m →
  geocoding (JsonIs v).
Proof.
  intros Hm. destruct v as [| | | | | |d]; try discriminate.
  destruct (py_eq_str (default PNone (d !! "status")) "OK") eqn:Hs.
  - apply py_eq_str_true in Hs.
    assert (d !! "status" = Some (PStr "OK")) as Hs'.
    { destruct (d !! "status"); simpl in Hs; congruence. }
    destruct (truthy (default PNone (d !! "results"))) eqn:Ht.
    + unfold extract_map_info, py_get, py_getitem in Hm.
      unfold mbind, Py_bind, mret, Py_ret in Hm. simpl in Hm.
      rewrite Hs' in Hm. simpl in Hm. rewrite Ht in Hm.
      destruct (d !! "results") as [[| | | |s|[|[| | | | | |first] rest]|r]|] eqn:Hr;
        simpl in Hm; try discriminate.
      * destruct s; discriminate.
      * apply (geocoding_success d first rest Hs' Hr).
        unfold geometry_of.
        destruct (first !! "geometry") as [[| | | | | |g]|]; simpl in Hm;
          try discriminate; eauto.
    + by apply geocoding_no_results.
  - apply geocoding_not_ok. intros Heq. rewrite Heq in Hs. discriminate.
Qed.

Lemma get_map_info_returns_iff (latitude longitude : float) :
  (∃ m, result (get_map_info latitude longitude) = Return m)
  ↔ geocoding (geocode_reply latitude longitude).
Proof.
  split; [|apply get_map_info_returns].
  intros [m Hm]. rewrite get_map_info_result in Hm.
  destruct (geocode_reply latitude longitude) as [e|e|v].
  - apply geocoding_failed.
  - apply geocoding_undecodable.
  - by apply extract_map_info_returns_inv in Hm.
Qed.

(** The success path on an answer of the expected shape: the first
    result is an object whose [geometry], when present, is an object.  Then
    [address] and [formatted_address] are the first result's
    [formatted_address] (or the stand-in text when that field is absent),
    and [location_type] is its [geometry.location_type] (or "N/A" when
    absent). *)
Theorem get_map_info_success (latitude longitude : float)
    (d first : gmap string pyval) (rest : list pyval) :
  geocode_reply latitude longitude = JsonIs (PDict d) →
  d !! "status" = Some (PStr "OK") →
  d !! "results" = Some (PList (PDict first :: rest)) →
  geometry_of first →
  fld "address" (result (get_map_info latitude longitude)) =
    Some (default (PStr "주소 정보 없음") (first !! "formatted_address"))
  ∧ fld "formatted_address" (result (get_map_info latitude longitude)) =
      Some (default (PStr "주소 정보 없음") (first !! "formatted_address"))
  ∧ fld "location_type" (result (get_map_info latitude longitude)) =
      Some match first !! "geometry" with
           | Some (PDict g) => default (PStr "N/A") (g !! "location_type")
           | _ => PStr "N/A"
           end.
Proof.
  intros Hrep Hs Hr Hg.
  rewrite get_map_info_result, Hrep.
  erewrite extract_map_info_success by eauto.
  split_and!; reflexivity.
Qed.


(** C9: in every record returned by [get_map_info], on whichever path it
    was built, [formatted_address] holds the same value as [address]. *)
Theorem get_map_info_address_twice (latitude longitude : float) (m : pyval) :
  result (get_map_info latitude longitude) = Return m →
  ∃ address,
    fld "address" (Return m) = Some address
    ∧ fld "formatted_address" (Return m) = Some address.
Proof.
  intros Hm. apply get_map_info_Return_inv in Hm as (a & l & ->).
  exists a. split; reflexivity.
Qed.

(** ** The request handler *)

(** Every provider call leaves at least one event behind. *)
Lemma providers_leave_trace :
  (∀ latitude longitude, trace (get_map_info latitude longitude) ≠ [])
  ∧ (∀ latitude longitude, trace (get_forest_data latitude longitude) ≠ [])
  ∧ (∀ region_name, trace (get_property_data region_name) ≠ []).
Proof.
  split_and!; try discriminate.
  intros latitude longitude. unfold get_map_info. rewrite trace_bind.
  destruct (geocode_call_trace latitude longitude) as [t ->].
  destruct (result _); discriminate.
Qed.

(** C5: a request whose [latitude] or [longitude] is missing, or present
    but rejected by [float], is answered with status 400 and the fixed
    error body, the same in all four cases.  The handler's trace is empty
    whereas every provider call leaves an event, so no provider ran. *)
Theorem get_region_info_bad_request (args : list (string * string)) :
  args_first args "latitude" = None
  ∨ (∃ s, args_first args "latitude" = Some s ∧ py_float s = None)
  ∨ args_first args "longitude" = None
  ∨ (∃ s, args_first args "longitude" = Some s ∧ py_float s = None) →
  get_region_info args =
    ([], Return {| body := PDict {[ "error" :=
                      PStr "latitude와 longitude 파라미터가 필요합니다." ]};
                   status_code := 400 |})
  ∧ (∀ latitude longitude, trace (get_map_info latitude longitude) ≠ [])
  ∧ (∀ latitude longitude, trace (get_forest_data latitude longitude) ≠ [])
  ∧ (∀ region_name, trace (get_property_data region_name) ≠ []).
Proof.
  intros H. split; [|apply providers_leave_trace].
  assert (args_get args "latitude" py_float = None
          ∨ args_get args "longitude" py_float = None) as Hnone.
  { unfold args_get.
    destruct H as [H|[(s & H & Hs)|[H|(s & H & Hs)]]]; rewrite H; auto. }
  unfold get_region_info.
  destruct Hnone as [-> | ->]; [reflexivity|].
  destruct (args_get args "latitude" py_float); reflexivity.
Qed.

(** With both coordinates parsed, the handler runs [aggregate] under its
    catch-all. *)
Lemma get_region_info_valid (args : list (string * string)) (latitude longitude : float) :
  args_get args "latitude" py_float = Some latitude →
  args_get args "longitude" py_float = Some longitude →
  get_region_info args =
  try_except (aggregate latitude longitude)
    (λ e, log ERROR "get_region_info 엔드포인트 에러: %s" (LExn e);;
          mret server_error).
Proof. intros Hlat Hlon. unfold get_region_info. by rewrite Hlat, Hlon. Qed.

(** The merge, given what [get_map_info] answered. *)
Lemma aggregate_result (latitude longitude : float) :
  result (aggregate latitude longitude) =
  match result (get_map_info latitude longitude) with
  | Return map_info =>
      match result (get_forest_data latitude longitude) with
      | Return forest_data =>
          match result (get_property_data
                          (default (PStr "") (fld "region_name" (Return forest_data)))) with
          | Return property_data =>
              Return {| body := PDict {[ "map_info" := map_info;
                                         "forest_data" := forest_data;
                                         "property_data" := property_data ]};
                        status_code := 200 |}
          | Raise e => Raise e
          end
      | Raise e => Raise e
      end
  | Raise e => Raise e
  end.
Proof.
  unfold aggregate. rewrite result_bind.
  destruct (result (get_map_info latitude longitude)); reflexivity.
Qed.





(** A decoded body that is not an object escapes [get_map_info] as an
    [AttributeError]: the field extraction is outside the [try]. *)
Lemma get_map_info_non_object (latitude longitude : float) (v : pyval) :
  geocode_reply latitude longitude = JsonIs v →
  (∀ d, v ≠ PDict d) →
  result (get_map_info latitude longitude) =
  Raise (AttributeError (type_name v) "get").
Proof.
  intros Hrep Hv.
  by rewrite get_map_info_result, Hrep, extract_map_info_non_object.
Qed.

(** ** Further properties of the geocoding provider *)

(** The field extraction has no effects of its own. *)
Lemma extract_map_info_pure (latitude longitude : float) (v : pyval) :
  trace (extract_map_info latitude longitude v) = [].
Proof.
  destruct v as [| | | | | |d]; try reflexivity.
  unfold extract_map_info, py_get, py_getitem.
  unfold mbind, Py_bind, mret, Py_ret. simpl.
  destruct (py_eq_str (default PNone (d !! "status")) "OK"); simpl;
    [|reflexivity].
  destruct (d !! "results") as [results|]; simpl; [|reflexivity].
  destruct (truthy results); simpl; [|reflexivity].
  destruct results as [|b|z|f|s|l|r]; simpl; try reflexivity.
  - destruct s; reflexivity.
  - destruct l as [|first rest]; [reflexivity|].
    destruct first as [| | | | | |first]; simpl; try reflexivity.
    destruct (default (PDict ∅) (first !! "geometry")); reflexivity.
Qed.

(** X1: when the request fails, the body cannot be decoded, or the decoded
    object has a status other than "OK" or no (or empty) results,
    [get_map_info] returns the sentinel record: the "address not found"
    text in [address] and [formatted_address], an empty [location_type],
    and the static-map URL. *)
Theorem get_map_info_sentinel (latitude longitude : float) :
  (∃ e, geocode_reply latitude longitude = GetRaises e)
  ∨ (∃ e, geocode_reply latitude longitude = JsonRaises e)
  ∨ (∃ d, geocode_reply latitude longitude = JsonIs (PDict d)
          ∧ (d !! "status" ≠ Some (PStr "OK")
             ∨ truthy (default PNone (d !! "results")) = false)) →
  result (get_map_info latitude longitude) =
  Return (PDict {[ "address" := PStr "주소 정보를 찾을 수 없음";
                   "formatted_address" := PStr "주소 정보를 찾을 수 없음";
                   "location_type" := PStr "";
                   "map_image_url" := PStr (static_map_url latitude longitude) ]}).
Proof.
  intros H. apply get_map_info_fallback.
  destruct H as [[e ->]|[[e ->]|(d & -> & H)]]; done.
Qed.

(** X2: every call of [get_map_info] performs exactly one GET, to the
    geocoding URL with the parameters [latlng] and [key] and a timeout of
    5, followed by exactly one log record: at level INFO with the decoded
    body when the body decoded, at level ERROR with the exception when the
    request or the decoding failed.  Nothing else is logged, also when the
    extraction raises afterwards. *)
Theorem get_map_info_effects (latitude longitude : float) :
  trace (get_map_info latitude longitude) =
  [ EvHttpGet "https://maps.googleapis.com/maps/api/geocode/json"
      {[ "latlng" := PStr (float_str latitude ++ "," ++ float_str longitude);
         "key" := key_val ]} 5;
    match geocode_reply latitude longitude with
    | JsonIs v => EvLog INFO "Google Geocoding API 호출 성공: %s" (LVal v)
    | GetRaises e | JsonRaises e =>
        EvLog ERROR "Google Geocoding API 호출 실패: %s" (LExn e)
    end ].
Proof.
  unfold get_map_info. rewrite trace_bind, geocode_call_result.
  rewrite extract_map_info_pure, app_nil_r.
  unfold geocode_call, geocode_reply, requests_get.
  destruct (upstream _ _ _) as [e|e|v]; reflexivity.
Qed.

(** A goal [Raise (AttributeError ty "get") = Raise e → ...] is closed by
    exhibiting a value of type [ty] that is not a dictionary; likewise for
    the [TypeError] of an index on a value that has none. *)
Local Ltac by_value tac :=
  first [ exists PNone; tac | exists (PBool true); tac | exists (PInt 0); tac
        | exists (PFloat 0); tac | exists (PStr ""); tac | exists (PList []); tac ].

Local Ltac raised_by_get :=
  simpl; intros [= <-]; left; by_value ltac:(split; [discriminate|reflexivity]).

Local Ltac raised_by_index :=
  simpl; intros [= <-]; right; right; by_value ltac:(reflexivity).

(** X3: the only exceptions that escape [get_map_info] come from the field
    extraction: an [AttributeError] for a [.get] on a value that is not a
    dictionary, [KeyError(0)] for results that are a dictionary, or the
    [TypeError] "'<type>' object is not subscriptable" for results that
    cannot be indexed.  An exception of the
    request or of the decoding never escapes, and neither does an
    [IndexError]: the truth test on the results guards the [[0]]. *)
Theorem get_map_info_raise_kinds (latitude longitude : float) (e : exn) :
  result (get_map_info latitude longitude) = Raise e →
  (∃ v, (∀ d, v ≠ PDict d) ∧ e = AttributeError (type_name v) "get")
  ∨ e = KeyError (PInt 0)
  ∨ (∃ v, e = TypeError ("'" ++ type_name v ++ "' object is not subscriptable")).
Proof.
  rewrite get_map_info_result.
  destruct (geocode_reply latitude longitude) as [e0|e0|v]; try discriminate.
  destruct v as [| | | | | |d]; try by raised_by_get.
  unfold extract_map_info, py_get, py_getitem.
  unfold mbind, Py_bind, mret, Py_ret. simpl.
  destruct (py_eq_str (default PNone (d !! "status")) "OK"); simpl;
    [|discriminate].
  destruct (d !! "results") as [results|]; simpl; [|discriminate].
  destruct (truthy results) eqn:Ht; simpl; [|discriminate].
  destruct results as [|b|z|f|s|l|r]; simpl in *; try discriminate;
    try by raised_by_index.
  - destruct s as [|a s]; [discriminate|]. by raised_by_get.
  - destruct l as [|first rest]; [discriminate|].
    destruct first as [| | | | | |first]; simpl; try by raised_by_get.
    destruct (default (PDict ∅) (first !! "geometry")) as [| | | | | |g];
      simpl; try discriminate; by raised_by_get.
  - intros [= <-]. right. left. reflexivity.
Qed.

(** ** Further properties of the request handler *)

(** X4: the handler never raises, and its status code tells what happened:
    400 exactly when a coordinate is missing or rejected by [float], 200
    exactly when both are parsed and [get_map_info] returns, 500 exactly
    when both are parsed and [get_map_info] raises; the body has an
    [error] field exactly when the status is not 200. *)
Theorem get_region_info_status (args : list (string * string)) :
  ∃ r,
    result (get_region_info args) = Return r
    ∧ (status_code r = 400%Z ↔
         args_get args "latitude" py_float = None
         ∨ args_get args "longitude" py_float = None)
    ∧ (status_code r = 200%Z ↔
         ∃ latitude longitude m,
           args_get args "latitude" py_float = Some latitude
           ∧ args_get args "longitude" py_float = Some longitude
           ∧ result (get_map_info latitude longitude) = Return m)
    ∧ (status_code r = 500%Z ↔
         ∃ latitude longitude e,
           args_get args "latitude" py_float = Some latitude
           ∧ args_get args "longitude" py_float = Some longitude
           ∧ result (get_map_info latitude longitude) = Raise e)
    ∧ (fld "error" (Return (body r)) = None ↔ status_code r = 200%Z).
Proof.
  destruct (args_get args "latitude" py_float) as [latitude|] eqn:Hlat;
    [destruct (args_get args "longitude" py_float) as [longitude|] eqn:Hlon|].
  - rewrite (get_region_info_valid _ _ _ Hlat Hlon), result_try_except, aggregate_result.
    destruct (result (get_map_info latitude longitude)) as [m|e] eqn:Hm.
    + eexists. split; [reflexivity|]. simpl. split_and!.
      * split; [discriminate|]. intros [?|?]; discriminate.
      * split; [|done]. intros _. exists latitude, longitude, m. done.
      * split; [discriminate|]. intros (? & ? & ? & [= <-] & [= <-] & ?). congruence.
      * done.
    + eexists. split; [reflexivity|]. simpl. split_and!.
      * split; [discriminate|]. intros [?|?]; discriminate.
      * split; [discriminate|]. intros (? & ? & ? & [= <-] & [= <-] & ?). congruence.
      * split; [|done]. intros _. exists latitude, longitude, e. done.
      * split; discriminate.
  - exists bad_request. unfold get_region_info. rewrite Hlat, Hlon.
    split; [reflexivity|]. simpl. split_and!.
    + split; auto.
    + split; [discriminate|]. intros (? & ? & ? & _ & ? & _). discriminate.
    + split; [discriminate|]. intros (? & ? & ? & _ & ? & _). discriminate.
    + split; discriminate.
  - exists bad_request. unfold get_region_info. rewrite Hlat.
    split; [reflexivity|]. simpl. split_and!.
    + split; auto.
    + split; [discriminate|]. intros (? & ? & ? & ? & _). discriminate.
    + split; [discriminate|]. intros (? & ? & ? & ? & _). discriminate.
    + split; discriminate.
Qed.

(** X5: on a valid request for which [get_map_info] returns, the effects
    of the handler are, in this order: those of the geocoding call, then
    the one INFO record of [get_forest_data] with the forest data it
    returned, then the one INFO record of [get_property_data] with the
    property data it returned.  Each provider runs once and the handler
    logs nothing of its own. *)
Theorem get_region_info_call_order (args : list (string * string))
    (latitude longitude : float) (m : pyval) :
  args_get args "latitude" py_float = Some latitude →
  args_get args "longitude" py_float = Some longitude →
  result (get_map_info latitude longitude) = Return m →
  ∃ forest_data property_data,
    result (get_forest_data latitude longitude) = Return forest_data
    ∧ (∀ region_name, result (get_property_data region_name) = Return property_data)
    ∧ trace (get_region_info args) =
        trace (get_map_info latitude longitude)
        ++ [ EvLog INFO "산림청 API 호출 성공: %s" (LVal forest_data);
             EvLog INFO "법원 등기소 API 호출 성공: %s" (LVal property_data) ].
Proof.
  intros Hlat Hlon Hm.
  rewrite (get_region_info_valid _ _ _ Hlat Hlon).
  unfold aggregate.
  destruct (get_map_info latitude longitude) as [t r].
  simpl in Hm. subst r.
  do 2 eexists. split_and!; reflexivity.
Qed.

(** X6: on a valid request for which [get_map_info] raises, the handler
    calls neither [get_forest_data] nor [get_property_data]: after the
    effects of the geocoding call its only effect is one ERROR record
    carrying the exception. *)
Theorem get_region_info_failure_trace (args : list (string * string))
    (latitude longitude : float) (e : exn) :
  args_get args "latitude" py_float = Some latitude →
  args_get args "longitude" py_float = Some longitude →
  result (get_map_info latitude longitude) = Raise e →
  trace (get_region_info args) =
    trace (get_map_info latitude longitude)
    ++ [EvLog ERROR "get_region_info 엔드포인트 에러: %s" (LExn e)].
Proof.
  intros Hlat Hlon Hm.
  rewrite (get_region_info_valid _ _ _ Hlat Hlon).
  unfold aggregate.
  destruct (get_map_info latitude longitude) as [t r].
  simpl in Hm. subst r. reflexivity.
Qed.

End app.

(** ** The statements at the sample worlds *)

(** C6, where the code departs from it: with status "OK" and the one
    result [{"formatted_address": "A", "geometry": null}] the claim gives
    the address "A" and the location type "N/A"; [get_map_info] returns
    neither, it raises [AttributeError] to its caller, because
    [.get("geometry", {})] yields the [null] that is there and the second
    [.get] is applied to it. *)
Theorem get_map_info_null_geometry_raises (key : option string)
    (float_str : float → string) (latitude longitude : float) :
  result (get_map_info key float_str (always null_geometry_reply) latitude longitude) =
  Raise (AttributeError "NoneType" "get").
Proof. reflexivity. Qed.

(** C3, where the code departs from it: a geocoding response whose body is
    the JSON value [null] is a malformed response, yet [get_map_info] does
    not return the sentinel record; it raises [AttributeError] to its
    caller, for every coordinate and credential. *)
Theorem get_map_info_null_body_raises (key : option string) (float_str : float → string)
    (latitude longitude : float) :
  result (get_map_info key float_str (always null_reply) latitude longitude) =
  Raise (AttributeError "NoneType" "get").
Proof. reflexivity. Qed.



Lemma get_region_info_bad_request_witness :
  (∃ s, args_first [("latitude", "abc"); ("longitude", "126.9780")] "latitude" = Some s
        ∧ sample_float s = None)
  ∧ get_region_info (Some "KEY") sample_float sample_str (always seoul_reply)
      [("latitude", "abc"); ("longitude", "126.9780")] =
    ([], Return {| body := PDict {[ "error" :=
                      PStr "latitude와 longitude 파라미터가 필요합니다." ]};
                   status_code := 400 |}).
Proof.
  assert (∃ s, args_first [("latitude", "abc"); ("longitude", "126.9780")] "latitude" = Some s
               ∧ sample_float s = None) as H.
  { exists "abc". split; reflexivity. }
  split; [exact H|].
  apply (get_region_info_bad_request (Some "KEY") sample_float sample_str
           (always seoul_reply) [("latitude", "abc"); ("longitude", "126.9780")]).
  right. left. exact H.
Defined.

Lemma get_map_info_success_witness :
  fld "address"
    (result (get_map_info (Some "KEY") sample_str (always seoul_reply) 37.5665 126.978)) =
    Some (PStr "110 Sejong-daero, Jung-gu, Seoul")
  ∧ fld "formatted_address"
      (result (get_map_info (Some "KEY") sample_str (always seoul_reply) 37.5665 126.978)) =
      Some (PStr "110 Sejong-daero, Jung-gu, Seoul")
  ∧ fld "location_type"
      (result (get_map_info (Some "KEY") sample_str (always seoul_reply) 37.5665 126.978)) =
      Some (PStr "ROOFTOP").
Proof.
  apply (get_map_info_success (Some "KEY") sample_str (always seoul_reply)
           37.5665 126.978
           {[ "status" := PStr "OK"; "results" := PList [PDict seoul_result] ]}
           seoul_result []).
  - reflexivity.
  - reflexivity.
  - reflexivity.
  - right. eexists. reflexivity.
Defined.


Lemma get_map_info_address_twice_witness :
  result (get_map_info (Some "KEY") sample_str (always seoul_reply) 37.5665 126.978) =
    Return seoul_map_info
  ∧ ∃ address,
      fld "address" (Return seoul_map_info) = Some address
      ∧ fld "formatted_address" (Return seoul_map_info) = Some address.
Proof.
  split; [reflexivity|].
  apply (get_map_info_address_twice (Some "KEY") sample_str (always seoul_reply)
           37.5665 126.978 seoul_map_info).
  reflexivity.
Defined.

(** ** [get_map_info] reads the status and the first result only *)

(** X7: of the decoded body [get_map_info] reads the status and the first
    element of the results, nothing else: two answers with the same status
    whose results start with the same element give the same outcome,
    whatever the further results and the other fields are. *)
Theorem get_map_info_first_result_only (key : option string) (float_str : float → string)
    (upstream1 upstream2 : string → gmap string pyval → Z → http_reply)
    (latitude longitude : float) (d1 d2 : gmap string pyval)
    (first : pyval) (rest1 rest2 : list pyval) :
  geocode_reply key float_str upstream1 latitude longitude = JsonIs (PDict d1) →
  geocode_reply key float_str upstream2 latitude longitude = JsonIs (PDict d2) →
  d1 !! "status" = d2 !! "status" →
  d1 !! "results" = Some (PList (first :: rest1)) →
  d2 !! "results" = Some (PList (first :: rest2)) →
  result (get_map_info key float_str upstream1 latitude longitude) =
  result (get_map_info key float_str upstream2 latitude longitude).
Proof.
  intros H1 H2 Hs Hr1 Hr2.
  rewrite !get_map_info_result, H1, H2.
  unfold extract_map_info, py_get, py_getitem.
  unfold mbind, Py_bind, mret, Py_ret. simpl.
  rewrite Hs, Hr1, Hr2. reflexivity.
Qed.

Lemma get_map_info_sentinel_witness :
  (∃ e, geocode_reply (Some "KEY") sample_str (always timeout_reply) 37.5665 126.978 =
        GetRaises e)
  ∧ result (get_map_info (Some "KEY") sample_str (always timeout_reply) 37.5665 126.978) =
      Return (PDict {[ "address" := PStr "주소 정보를 찾을 수 없음";
                       "formatted_address" := PStr "주소 정보를 찾을 수 없음";
                       "location_type" := PStr "";
                       "map_image_url" :=
                         PStr (static_map_url (Some "KEY") sample_str 37.5665 126.978) ]}).
Proof.
  assert (∃ e, geocode_reply (Some "KEY") sample_str (always timeout_reply)
                 37.5665 126.978 = GetRaises e) as Hfail.
  { eexists. reflexivity. }
  split; [exact Hfail|].
  apply (get_map_info_sentinel (Some "KEY") sample_str (always timeout_reply)
           37.5665 126.978).
  left. exact Hfail.
Defined.

Lemma get_map_info_raise_kinds_witness :
  result (get_map_info (Some "KEY") sample_str (always null_reply) 37.5665 126.978) =
    Raise (AttributeError "NoneType" "get")
  ∧ ((∃ v, (∀ d, v ≠ PDict d) ∧ AttributeError "NoneType" "get" = AttributeError (type_name v) "get")
     ∨ AttributeError "NoneType" "get" = KeyError (PInt 0)
     ∨ (∃ v, AttributeError "NoneType" "get" =
             TypeError ("'" ++ type_name v ++ "' object is not subscriptable"))).
Proof.
  split; [reflexivity|].
  apply (get_map_info_raise_kinds (Some "KEY") sample_str (always null_reply)
           37.5665 126.978 (AttributeError "NoneType" "get")).
  reflexivity.
Defined.

Lemma get_region_info_call_order_witness :
  result (get_map_info (Some "KEY") sample_str (always seoul_reply) 37.5665 126.978) =
    Return seoul_map_info
  ∧ ∃ forest_data property_data,
      result (get_forest_data 37.5665 126.978) = Return forest_data
      ∧ (∀ region_name, result (get_property_data region_name) = Return property_data)
      ∧ trace (get_region_info (Some "KEY") sample_float sample_str (always seoul_reply)
                 sample_args) =
          trace (get_map_info (Some "KEY") sample_str (always seoul_reply) 37.5665 126.978)
          ++ [ EvLog INFO "산림청 API 호출 성공: %s" (LVal forest_data);
               EvLog INFO "법원 등기소 API 호출 성공: %s" (LVal property_data) ].
Proof.
  split; [reflexivity|].
  apply (get_region_info_call_order (Some "KEY") sample_float sample_str
           (always seoul_reply) sample_args 37.5665 126.978 seoul_map_info);
    reflexivity.
Defined.

Lemma get_region_info_failure_trace_witness :
  result (get_map_info (Some "KEY") sample_str (always null_reply) 37.5665 126.978) =
    Raise (AttributeError "NoneType" "get")
  ∧ trace (get_region_info (Some "KEY") sample_float sample_str (always null_reply)
             sample_args) =
      trace (get_map_info (Some "KEY") sample_str (always null_reply) 37.5665 126.978)
      ++ [EvLog ERROR "get_region_info 엔드포인트 에러: %s"
            (LExn (AttributeError "NoneType" "get"))].
Proof.
  split; [reflexivity|].
  apply (get_region_info_failure_trace (Some "KEY") sample_float sample_str
           (always null_reply) sample_args 37.5665 126.978
           (AttributeError "NoneType" "get"));
    reflexivity.
Defined.

Lemma get_map_info_first_result_only_witness :
  result (get_map_info (Some "KEY") sample_str (always seoul_reply) 37.5665 126.978) =
  result (get_map_info (Some "KEY") sample_str (always seoul_reply_more) 37.5665 126.978).
Proof.
  apply (get_map_info_first_result_only (Some "KEY") sample_str
           (always seoul_reply) (always seoul_reply_more) 37.5665 126.978
           {[ "status" := PStr "OK"; "results" := PList [PDict seoul_result] ]}
           {[ "status" := PStr "OK";
              "plus_code" := PDict {[ "global_code" := PStr "8Q98HX8H+J6" ]};
              "results" := PList [PDict seoul_result; PDict ∅] ]}
           (PDict seoul_result) [] [PDict ∅]);
    reflexivity.
Defined.

(** * Properties of the upload script *)

Module UploadFacts.
Import Upload.

Section facts.
Context `{Host}.

(** One turn of the loop, spelled out. *)
Lemma upload_entry_run (local_dir filename : string) (s : server) :
  upload_entry local_dir filename s =
  if isfile (join local_dir filename)
  then
    match read (join local_dir filename) with
    | Ok data =>
        ([ Open (join local_dir filename);
           Print ("Uploading " ++ filename ++ "...");
           Ftp (STOR ("STOR " ++ filename) data);
           Close (join local_dir filename) ],
         (send s (STOR ("STOR " ++ filename) data)).2,
         (send s (STOR ("STOR " ++ filename) data)).1)
    | Err e => ([], s, Err e)
    end
  else ([], s, Ok tt).
Proof.
  unfold upload_entry.
  destruct (isfile (join local_dir filename)); [|reflexivity].
  unfold mbind, U_bind, open_rb, finally, print, ftp, close.
  destruct (read (join local_dir filename)) as [data|e]; [|reflexivity].
  destruct (send s (STOR ("STOR " ++ filename) data)) as [[[]|e] s']; reflexivity.
Qed.

Lemma upload_entries_cons (local_dir filename : string) (rest : list string) (s : server) :
  upload_entries local_dir (filename :: rest) s =
  match upload_entry local_dir filename s with
  | (t, s1, Ok _) =>
      let '(t', s2, r) := upload_entries local_dir rest s1 in (t ++ t', s2, r)
  | (t, s1, Err e) => (t, s1, Err e)
  end.
Proof. reflexivity. Qed.

Lemma upload_files_run (local_dir remote_dir : string) (s : server) :
  upload_files local_dir remote_dir s =
  match send s (CWD remote_dir) with
  | (Ok _, s1) =>
      match listdir local_dir with
      | Ok names =>
          let '(t, s2, r) := upload_entries local_dir names s1 in
          (Ftp (CWD remote_dir) :: t, s2, r)
      | Err e => ([Ftp (CWD remote_dir)], s1, Err e)
      end
  | (Err e, s1) => ([Ftp (CWD remote_dir)], s1, Err e)
  end.
Proof.
  unfold upload_files, mbind, U_bind, ftp, os_listdir.
  destruct (send s (CWD remote_dir)) as [[[]|e] s1]; [|reflexivity].
  destruct (listdir local_dir) as [names|e]; [|reflexivity].
  simpl. destruct (upload_entries local_dir names s1) as [[t s2] r]. reflexivity.
Qed.

Lemma upload_entries_stored_prefix (local_dir : string) (names : list string) (s : server) :
  (stored (events (upload_entries local_dir names s))).*1
  `prefix_of` (λ filename, "STOR " ++ filename)%string <$> regular local_dir names.
Proof.
  revert s. induction names as [|filename rest IH]; intros s.
  - apply prefix_nil.
  - rewrite upload_entries_cons, upload_entry_run. unfold regular. simpl.
    destruct (isfile (join local_dir filename)).
    + destruct (read (join local_dir filename)) as [data|e]; [|apply prefix_nil].
      destruct (send s (STOR ("STOR " ++ filename) data)) as [[[]|e] s1]; simpl.
      * specialize (IH s1).
        destruct (upload_entries local_dir rest s1) as [[t s2] r].
        simpl. by apply prefix_cons.
      * apply prefix_cons, prefix_nil.
    + specialize (IH s).
      destruct (upload_entries local_dir rest s) as [[t s2] r]. exact IH.
Qed.

(** Whatever the server answers, the [STOR] commands that [upload_files]
    sends are, in order, an initial part of the commands [STOR <name>] for
    the regular files of the listing. *)
Theorem upload_files_stor_prefix (local_dir remote_dir : string) (s : server) :
  (stored (events (upload_files local_dir remote_dir s))).*1
  `prefix_of`
  (λ filename, "STOR " ++ filename)%string
    <$> regular local_dir match listdir local_dir with
                          | Ok names => names
                          | Err _ => []
                          end.
Proof.
  rewrite upload_files_run.
  destruct (send s (CWD remote_dir)) as [[[]|e] s1]; [|apply prefix_nil].
  destruct (listdir local_dir) as [names|e]; [|apply prefix_nil].
  pose proof (upload_entries_stored_prefix local_dir names s1) as IH.
  destruct (upload_entries local_dir names s1) as [[t s2] r]. exact IH.
Qed.

Lemma upload_entries_refused (local_dir : string) (names : list string) (s : server)
    (e : failure) (after : list event) :
  refused s (events (upload_entries local_dir names s)) = Some (e, after) →
  ended (upload_entries local_dir names s) = Err e ∧ commands after = [].
Proof.
  revert s. induction names as [|filename rest IH]; intros s; [discriminate|].
  rewrite upload_entries_cons, upload_entry_run.
  destruct (isfile (join local_dir filename)).
  - destruct (read (join local_dir filename)) as [data|e0]; [|discriminate].
    destruct (send s (STOR ("STOR " ++ filename) data)) as [[[]|e0] s1] eqn:Hsend;
      simpl.
    + specialize (IH s1).
      destruct (upload_entries local_dir rest s1) as [[t s2] r].
      unfold events, ended in *. simpl in *. rewrite Hsend. exact IH.
    + unfold events, ended. simpl. rewrite Hsend. intros [= <- <-]. done.
  - specialize (IH s).
    destruct (upload_entries local_dir rest s) as [[t s2] r]. exact IH.
Qed.

(** X8: the [STOR] commands that [upload_files] sends are, in order, an
    initial part of the commands [STOR <name>] for the regular files of the
    listing: nothing is sent for a sub-directory or for a name outside the
    listing, and the remote name is the bare file name.  As soon as the
    server refuses a command, be it the [CWD] or a [STOR], [upload_files]
    raises the server's error and sends no further command. *)
Theorem upload_files_stops_at_refusal (local_dir remote_dir : string) (s : server) :
  (stored (events (upload_files local_dir remote_dir s))).*1
    `prefix_of`
    (λ filename, "STOR " ++ filename)%string
      <$> regular local_dir match listdir local_dir with
                            | Ok names => names
                            | Err _ => []
                            end
  ∧ ∀ e after,
      refused s (events (upload_files local_dir remote_dir s)) = Some (e, after) →
      ended (upload_files local_dir remote_dir s) = Err e
      ∧ commands after = [].
Proof.
  split; [apply upload_files_stor_prefix|].
  intros e after. rewrite upload_files_run.
  destruct (send s (CWD remote_dir)) as [[[]|e0] s1] eqn:Hcwd.
  - destruct (listdir local_dir) as [names|e0].
    + pose proof (upload_entries_refused local_dir names s1 e after) as Hrest.
      destruct (upload_entries local_dir names s1) as [[t s2] r].
      unfold events, ended in *. simpl in *. rewrite Hcwd. exact Hrest.
    + unfold events. simpl. rewrite Hcwd. discriminate.
  - unfold events, ended. simpl. rewrite Hcwd. intros [= <- <-]. done.
Qed.

Lemma upload_entries_complete (local_dir : string) (names : list string) (s : server) :
  ended (upload_entries local_dir names s) = Ok tt →
  Forall2 (λ filename sent,
             sent.1 = ("STOR " ++ filename)%string
             ∧ read (join local_dir filename) = Ok sent.2)
    (regular local_dir names)
    (stored (events (upload_entries local_dir names s))).
Proof.
  revert s. induction names as [|filename rest IH]; intros s.
  - intros _. constructor.
  - rewrite upload_entries_cons, upload_entry_run. unfold regular. simpl.
    destruct (isfile (join local_dir filename)).
    + destruct (read (join local_dir filename)) as [data|e] eqn:Hread; [|discriminate].
      destruct (send s (STOR ("STOR " ++ filename) data)) as [[[]|e] s1]; simpl;
        [|discriminate].
      specialize (IH s1).
      destruct (upload_entries local_dir rest s1) as [[t s2] r].
      simpl. intros Hr. constructor; [done|]. by apply IH.
    + specialize (IH s).
      destruct (upload_entries local_dir rest s) as [[t s2] r]. exact IH.
Qed.

(** X9: when [upload_files] returns normally, it has sent one [STOR] for
    each regular file of the directory listing, in listing order and
    nothing else: the command names the bare file name and carries the
    bytes of that file. *)
Theorem upload_files_complete (local_dir remote_dir : string) (s : server) :
  ended (upload_files local_dir remote_dir s) = Ok tt →
  ∃ names,
    listdir local_dir = Ok names
    ∧ Forall2 (λ filename sent,
                 sent.1 = ("STOR " ++ filename)%string
                 ∧ read (join local_dir filename) = Ok sent.2)
        (regular local_dir names)
        (stored (events (upload_files local_dir remote_dir s))).
Proof.
  rewrite upload_files_run.
  destruct (send s (CWD remote_dir)) as [[[]|e] s1]; [|discriminate].
  destruct (listdir local_dir) as [names|e]; [|discriminate].
  pose proof (upload_entries_complete local_dir names s1) as IH.
  destruct (upload_entries local_dir names s1) as [[t s2] r].
  intros Hr. exists names. split; [reflexivity|]. by apply IH.
Qed.

Lemma upload_entries_balanced (local_dir : string) (names : list string) (s : server) :
  closed (events (upload_entries local_dir names s)) =
  opened (events (upload_entries local_dir names s)).
Proof.
  revert s. induction names as [|filename rest IH]; intros s; [reflexivity|].
  rewrite upload_entries_cons, upload_entry_run.
  destruct (isfile (join local_dir filename)).
  - destruct (read (join local_dir filename)) as [data|e]; [|reflexivity].
    destruct (send s (STOR ("STOR " ++ filename) data)) as [[[]|e] s1]; simpl;
      [|reflexivity].
    specialize (IH s1).
    destruct (upload_entries local_dir rest s1) as [[t s2] r].
    unfold events in *. simpl in *. by rewrite IH.
  - specialize (IH s).
    destruct (upload_entries local_dir rest s) as [[t s2] r]. exact IH.
Qed.

(** X10: every file that [upload_files] opens it also closes, in the same
    order, also when the server refuses the [STOR] or a later step fails. *)
Theorem upload_files_closes_files (local_dir remote_dir : string) (s : server) :
  closed (events (upload_files local_dir remote_dir s)) =
  opened (events (upload_files local_dir remote_dir s)).
Proof.
  rewrite upload_files_run.
  destruct (send s (CWD remote_dir)) as [[[]|e] s1]; [|reflexivity].
  destruct (listdir local_dir) as [names|e]; [|reflexivity].
  pose proof (upload_entries_balanced local_dir names s1) as IH.
  destruct (upload_entries local_dir names s1) as [[t s2] r]. exact IH.
Qed.

Lemma upload_entries_no_quit (local_dir : string) (names : list string) (s : server) :
  Ftp QUIT ∉ events (upload_entries local_dir names s).
Proof.
  revert s. induction names as [|filename rest IH]; intros s.
  - apply not_elem_of_nil.
  - rewrite upload_entries_cons, upload_entry_run.
    destruct (isfile (join local_dir filename)).
    + destruct (read (join local_dir filename)) as [data|e]; [|apply not_elem_of_nil].
      destruct (send s (STOR ("STOR " ++ filename) data)) as [[[]|e] s1]; simpl.
      * specialize (IH s1).
        destruct (upload_entries local_dir rest s1) as [[t s2] r].
        unfold events in *. simpl in *.
        rewrite !not_elem_of_cons. split_and!; done.
      * unfold events. simpl. rewrite !not_elem_of_cons.
        split_and!; try done. apply not_elem_of_nil.
    + specialize (IH s).
      destruct (upload_entries local_dir rest s) as [[t s2] r]. exact IH.
Qed.

Lemma upload_files_no_quit (local_dir remote_dir : string) (s : server) :
  Ftp QUIT ∉ events (upload_files local_dir remote_dir s).
Proof.
  rewrite upload_files_run.
  destruct (send s (CWD remote_dir)) as [[[]|e] s1];
    [|by apply not_elem_of_cons; split; [|apply not_elem_of_nil]].
  destruct (listdir local_dir) as [names|e];
    [|by apply not_elem_of_cons; split; [|apply not_elem_of_nil]].
  pose proof (upload_entries_no_quit local_dir names s1) as IH.
  destruct (upload_entries local_dir names s1) as [[t s2] r].
  unfold events in *. simpl in *. by apply not_elem_of_cons.
Qed.

(** X11: [main] sends [QUIT] exactly when the connection, the login and
    the whole upload succeeded; after any failure the script ends without
    closing the session. *)
Theorem main_quit_iff :
  Ftp QUIT ∈ main.1 ↔
  ∃ session s1,
    connect FTP_SERVER = Ok session
    ∧ send session (LOGIN FTP_USER FTP_PASS) = (Ok tt, s1)
    ∧ ended (upload_files LOCAL_DIR REMOTE_DIR s1) = Ok tt.
Proof.
  unfold main.
  destruct (connect FTP_SERVER) as [session|e].
  - unfold mbind, U_bind, ftp, print.
    destruct (send session (LOGIN FTP_USER FTP_PASS)) as [[[]|e] s1] eqn:Hlogin.
    + pose proof (upload_files_no_quit LOCAL_DIR REMOTE_DIR s1) as Hnq.
      destruct (upload_files LOCAL_DIR REMOTE_DIR s1) as [[t s2] [[]|e]] eqn:Hup.
      * destruct (send s2 QUIT) as [[[]|e] s3]; simpl.
        -- split; intros _.
           ++ exists session, s1. split_and!; [done|done|by rewrite Hup].
           ++ rewrite !elem_of_cons, elem_of_app, !elem_of_cons. auto.
        -- split; intros _.
           ++ exists session, s1. split_and!; [done|done|by rewrite Hup].
           ++ rewrite !elem_of_cons, elem_of_app, !elem_of_cons. auto.
      * simpl. split.
        -- rewrite !elem_of_cons. intros [?|[?|?]]; try discriminate.
           by destruct Hnq.
        -- intros (session' & s1' & [= <-] & Hl & Hup').
           rewrite Hlogin in Hl. injection Hl as <-. rewrite Hup in Hup'. discriminate.
    + simpl. split.
      * rewrite elem_of_cons. intros [?|Hin]; [discriminate|].
        by apply elem_of_nil in Hin.
      * intros (session' & s1' & [= <-] & Hl & _). rewrite Hlogin in Hl. discriminate.
  - simpl. split.
    + intros Hin. by apply elem_of_nil in Hin.
    + intros (? & ? & ? & _). discriminate.
Qed.

End facts.

(** On the sample site the whole upload goes through: two files are sent,
    the sub-directory is skipped. *)
Lemma upload_files_complete_witness :
  ended (upload_files (H := sample_host) "site" "htdocs" []) = Ok tt
  ∧ ∃ names,
      listdir (Host := sample_host) "site" = Ok names
      ∧ Forall2 (λ filename sent,
                   sent.1 = ("STOR " ++ filename)%string
                   ∧ read (Host := sample_host)
                       (join (Host := sample_host) "site" filename) = Ok sent.2)
          (regular (H := sample_host) "site" names)
          (stored (events (upload_files (H := sample_host) "site" "htdocs" []))).
Proof.
  split; [reflexivity|].
  apply (upload_files_complete (H := sample_host) "site" "htdocs" []).
  reflexivity.
Defined.

Lemma main_quit_iff_witness :
  Ftp QUIT ∈ (main (H := sample_host)).1.
Proof.
  apply (main_quit_iff (H := sample_host)).
  exists [], [LOGIN FTP_USER FTP_PASS]. split_and!; reflexivity.
Defined.

(** Behind a server that refuses every [STOR], the first [STOR] is the
    refused command; only the closing of the file follows it. *)
Lemma upload_files_stops_at_refusal_witness :
  refused (H := read_only_host) []
    (events (upload_files (H := read_only_host) "site" "htdocs" [])) =
    Some (FTPError "550 Permission denied", [Close "site/index.html"])
  ∧ ended (upload_files (H := read_only_host) "site" "htdocs" []) =
      Err (FTPError "550 Permission denied")
  ∧ commands [Close "site/index.html"] = [].
Proof.
  split; [reflexivity|].
  apply (upload_files_stops_at_refusal (H := read_only_host) "site" "htdocs" []).
  reflexivity.
Defined.

(** Behind a server that refuses every [STOR] the run ends at the first
    file: one command was tried, the file was closed again, and the script
    never sends [QUIT]. *)
Example upload_refused :
  ended (upload_files (H := read_only_host) "site" "htdocs" []) =
    Err (FTPError "550 Permission denied")
  ∧ (stored (events (upload_files (H := read_only_host) "site" "htdocs" []))).*1 =
      ["STOR index.html"]
  ∧ closed (events (upload_files (H := read_only_host) "site" "htdocs" [])) =
      ["site/index.html"]
  ∧ (main (H := read_only_host)).2 = Err (FTPError "550 Permission denied").
Proof. split_and!; reflexivity. Qed.

End UploadFacts.
